(** * Password strength checker: the classification-and-override engine

    A shallow embedding of [predict_password_strength] of [app.py] and the
    properties of its rule chain, and of the handler of the Analyze button
    that calls it and draws the result.

    The function reads a password, asks the vectorizer and the classifier
    (two objects loaded once, never mutated) for a raw label and a
    probability distribution, and then lets an ordered chain of rules on
    the length and the character diversity overrule the raw label.

    The embedding keeps three things of the Python code explicit:
    - characters are classified by [str.islower], [str.isupper],
      [str.isdigit] and [str.isalnum]: an interface [PyChar];
    - numbers that reach the classifier are floats obtained from integers
      by conversion and by true division: an interface [PyFloat];
    - the calls to the vectorizer and to the classifier may raise, and it
      matters whether they are made at all: a monad [M] which threads a
      log of the external calls and propagates exceptions. *)

From Stdlib Require Import ZArith List String Ascii Bool Lia.
From Stdlib Require Import DecimalString SpecFloat.
Import ListNotations.

Local Open Scope string_scope.
Local Open Scope list_scope.
Local Open Scope Z_scope.

(** ** Characters and numbers of the Python runtime *)

(** The four methods of a one-character [str] that the code calls. *)
Class PyChar (char : Type) := {
  islower : char -> bool;
  isupper : char -> bool;
  isdigit : char -> bool;
  isalnum : char -> bool
}.

(** Floats as the code obtains them: the literals [1.0] and [0.0];
    [float_of_int n], the float an integer becomes when numpy stores it
    in a [float64] array; [true_div a b], the Python expression [a / b]
    on two integers with [b] not zero. *)
Class PyFloat (float : Type) := {
  lit_1_0 : float;
  lit_0_0 : float;
  float_of_int : Z -> float;
  true_div : Z -> Z -> float
}.

(** ** Exceptions, the log of external calls, and the monad *)

Inductive exn : Type :=
| ZeroDivisionError
| VectorizerError
| ClassifierError.

Inductive outcome (A : Type) : Type :=
| Returned (a : A)
| Raised (e : exn).

Arguments Returned {A} a.
Arguments Raised {A} e.

Section Engine.

Context {char float : Type} {PC : PyChar char} {PF : PyFloat float}.

(** One entry per invocation of an external capability, with its
    argument. *)
Inductive Call : Type :=
| TransformCall (sample : list char)
| PredictCall (x : list float)
| PredictProbaCall (x : list float).

(** A computation takes the log so far and gives an outcome and the log
    extended, in order, by the calls it made. *)
Definition M (A : Type) : Type := list Call -> outcome A * list Call.

Definition ret {A} (a : A) : M A := fun log => (Returned a, log).

Definition raise {A} (e : exn) : M A := fun log => (Raised e, log).

Definition bind {A B} (c : M A) (k : A -> M B) : M B :=
  fun log =>
    match c log with
    | (Returned a, log') => k a log'
    | (Raised e, log') => (Raised e, log')
    end.

Notation "x <- c ;; k" := (bind c (fun x => k))
  (at level 61, c at next level, right associativity).

(** The two artifacts of [load_models], as the capabilities the function
    uses. [None] stands for a call that raises.
    - [vectorizer_transform pw] is
      [vectorizer.transform(np.array([pw])).toarray()], the single row;
    - [clf_predict x] is [clf.predict(x)[0]] and [clf_predict_proba x]
      is [clf.predict_proba(x)[0]], for the one-row matrix [x]. *)
Record Models : Type := {
  vectorizer_transform : list char -> option (list float);
  clf_predict : list float -> option Z;
  clf_predict_proba : list float -> option (list float)
}.

Definition external {A} (c : Call) (e : exn) (r : option A) : M A :=
  fun log =>
    (match r with Some a => Returned a | None => Raised e end, log ++ [c]).

Definition call_transform (m : Models) (sample : list char) : M (list float) :=
  external (TransformCall sample) VectorizerError (vectorizer_transform m sample).

Definition call_predict (m : Models) (x : list float) : M Z :=
  external (PredictCall x) ClassifierError (clf_predict m x).

Definition call_predict_proba (m : Models) (x : list float) : M (list float) :=
  external (PredictProbaCall x) ClassifierError (clf_predict_proba m x).

(** ** Python builtins used by the function *)

(** [len(password)] *)
Definition len {A} (l : list A) : Z := Z.of_nat (List.length l).

(** [sum(xs)]: starts from 0 and adds from the left. *)
Definition py_sum (xs : list Z) : Z := fold_left Z.add xs 0.

(** [sum(1 for c in password if p(c))] *)
Definition count_if (p : char -> bool) (password : list char) : Z :=
  py_sum (map (fun _ => 1) (filter p password)).

(** [any(p(c) for c in password)] *)
Definition any (p : char -> bool) (password : list char) : bool :=
  existsb p password.

(** [a / b] on integers: raises on a zero divisor. *)
Definition py_div (a b : Z) : M float :=
  if b =? 0 then raise ZeroDivisionError else ret (true_div a b).

(** [f"{n}"] for an integer [n]. *)
Definition str (n : Z) : string := NilZero.string_of_int (Z.to_int n).

(** ** The character profile (lines 54 to 58) *)

Definition has_lower (password : list char) : bool := any islower password.
Definition has_upper (password : list char) : bool := any isupper password.
Definition has_digit (password : list char) : bool := any isdigit password.
Definition has_special (password : list char) : bool :=
  any (fun c => negb (isalnum c)) password.

Definition char_types (password : list char) : Z :=
  py_sum [Z.b2z (has_lower password); Z.b2z (has_upper password);
          Z.b2z (has_digit password); Z.b2z (has_special password)].

(** ** The rule chain (lines 60 to 87)

    The [if]/[elif] cascade on the length, the character diversity and
    the raw label; it gives the final label and the reason. *)
Definition rule_chain (length_pass char_types result : Z) : Z * string :=
  if length_pass <=? 6 then
    (0, "Too short (≤6 characters)")
  else if (length_pass <=? 12) && (result =? 2) then
    (1, "Too short to be strong (≤12 chars)")
  else if (length_pass >=? 18) && (char_types >=? 3) then
    (2, ("Long password (" ++ str length_pass ++ " chars) with good diversity ("
           ++ str char_types ++ "/4 types)")%string)
  else if length_pass >=? 30 then
    (2, "Very long password (≥30 chars)")
  else if (length_pass >=? 15) && (result =? 0) then
    (1, "Too long to be weak (≥15 chars)")
  else
    (result, "Model prediction").

(** ** [predict_password_strength] (lines 25 to 89) *)

Definition empty_result : Z * list float * string :=
  (0, [lit_1_0; lit_0_0; lit_0_0], "Empty password").

Definition predict_password_strength (m : Models) (password : list char)
  : M (Z * list float * string) :=
  if len password =? 0 then ret empty_result
  else
    let length_pass := len password in
    if length_pass =? 0 then ret empty_result
    else
      length_normalised_lowercase <- py_div (count_if islower password) length_pass ;;
      length_normalised_uppercase <- py_div (count_if isupper password) length_pass ;;
      length_normalised_digit <- py_div (count_if isdigit password) length_pass ;;
      sample_matrix <- call_transform m password ;;
      let new_matrix :=
        sample_matrix ++ [float_of_int length_pass; length_normalised_lowercase;
                          length_normalised_uppercase; length_normalised_digit] in
      result <- call_predict m new_matrix ;;
      probabilities <- call_predict_proba m new_matrix ;;
      let (result', reason) :=
        rule_chain length_pass (char_types password) result in
      ret (result', probabilities, reason).

End Engine.

Arguments Call : clear implicits.
Arguments M : clear implicits.
Arguments Models : clear implicits.

(** ** What the classifier is asked and what it answers *)

Section Features.

Context {char float : Type} {PC : PyChar char} {PF : PyFloat float}.

(** The number of characters of the password that satisfy [p]. *)
Definition count (p : char -> bool) (password : list char) : Z :=
  Z.of_nat (List.length (filter p password)).

(** The share of the characters of the password that satisfy [p]. *)
Definition fraction (p : char -> bool) (password : list char) : float :=
  true_div (count p password) (len password).

(** The feature vector as the specification describes it: the output [v]
    of the vectorizer, then the length and the lowercase, uppercase and
    digit fractions. *)
Definition feature_vector (password : list char) (v : list float) : list float :=
  v ++ [float_of_int (len password); fraction islower password;
        fraction isupper password; fraction isdigit password].

(** The raw label and the distribution that the loaded models give for a
    password, when none of the three calls raises. *)
Definition raw_prediction (m : Models char float) (password : list char)
  : option (Z * list float) :=
  match vectorizer_transform m password with
  | Some v =>
      match clf_predict m (feature_vector password v),
            clf_predict_proba m (feature_vector password v) with
      | Some raw, Some p => Some (raw, p)
      | _, _ => None
      end
  | None => None
  end.

End Features.

(** ** A concrete runtime: Latin-1 characters, binary64 floats, stub models *)

Module Latin1.

Definition code (c : ascii) : Z := Z.of_N (N_of_ascii c).

Definition between (lo hi : Z) (c : ascii) : bool :=
  (lo <=? code c) && (code c <=? hi).

Definition exactly (n : Z) (c : ascii) : bool := code c =? n.

(** Python's classification of the code points U+0000 to U+00FF. *)
Definition lower (c : ascii) : bool :=
  between 97 122 c || exactly 170 c || exactly 181 c || exactly 186 c
  || between 223 246 c || between 248 255 c.

Definition upper (c : ascii) : bool :=
  between 65 90 c || between 192 214 c || between 216 222 c.

Definition digit (c : ascii) : bool :=
  between 48 57 c || exactly 178 c || exactly 179 c || exactly 185 c.

Definition alpha (c : ascii) : bool :=
  lower c || upper c.

Definition alnum (c : ascii) : bool :=
  alpha c || digit c || between 188 190 c.

End Latin1.

#[export] Instance latin1_PyChar : PyChar ascii := {|
  islower := Latin1.lower;
  isupper := Latin1.upper;
  isdigit := Latin1.digit;
  isalnum := Latin1.alnum
|}.

Module Binary64.

Definition prec : Z := 53.
Definition emax : Z := 1024.

(** The nearest double of an integer. *)
Definition of_int (n : Z) : spec_float := binary_normalize prec emax n 0 false.

(** The quotient of two integers that are doubles themselves (below
    2^53 in absolute value), as Python's [/] gives it. *)
Definition div (a b : Z) : spec_float := SFdiv prec emax (of_int a) (of_int b).

End Binary64.

(** Some doubles by name. *)
Definition f_0_0 : spec_float := S754_zero false.
Definition f_1_0 : spec_float := S754_finite false 4503599627370496 (-52).
Definition f_0_5 : spec_float := S754_finite false 4503599627370496 (-53).
Definition f_0_25 : spec_float := S754_finite false 4503599627370496 (-54).

#[export] Instance binary64_PyFloat : PyFloat spec_float := {|
  lit_1_0 := f_1_0;
  lit_0_0 := f_0_0;
  float_of_int := Binary64.of_int;
  true_div := Binary64.div
|}.

(** Stub models: a vectorizer that answers [v] and a classifier that
    answers the label [raw] and the distribution [p], whatever they are
    asked. *)
Definition stub_models (v : list spec_float) (raw : Z) (p : list spec_float)
  : Models ascii spec_float := {|
  vectorizer_transform := fun _ => Some v;
  clf_predict := fun _ => Some raw;
  clf_predict_proba := fun _ => Some p
|}.

(** A classifier whose [predict] raises. *)
Definition broken_models (v : list spec_float) : Models ascii spec_float := {|
  vectorizer_transform := fun _ => Some v;
  clf_predict := fun _ => None;
  clf_predict_proba := fun _ => None
|}.

(** An ASCII string as a password. *)
Definition password_of (s : string) : list ascii := list_ascii_of_string s.

(** A distribution that favours Weak, one that favours Strong. *)
Definition mostly_weak : list spec_float := [f_0_5; f_0_25; f_0_25].
Definition mostly_strong : list spec_float := [f_0_25; f_0_25; f_0_5].

(** Passwords of the examples. *)
Definition abc123 : list ascii := password_of "abc123".
Definition Password123 : list ascii := password_of "Password123!".
Definition Password1234 : list ascii := password_of "Password1234!".
Definition Password12345 : list ascii := password_of "Password12345!".
Definition TheQuixy : list ascii := password_of "TheQuixy#234522wish".
Definition horse_battery : list ascii := password_of "correcthorsebattery1".
Definition thirty_one_lowercase : list ascii :=
  password_of "abcdefghijklmnopqrstuvwxyzabcde".

(** Classifiers that answer Weak, Normal or Strong on every input. *)
Definition says_weak : Models ascii spec_float :=
  stub_models [f_0_5] 0 mostly_weak.
Definition says_normal : Models ascii spec_float :=
  stub_models [f_0_5] 1 mostly_weak.
Definition says_strong : Models ascii spec_float :=
  stub_models [f_0_5] 2 mostly_strong.

(** * The analysis page: the handler of the Analyze button

    Lines 232 to 359 of [app.py]: the code that runs when the button is
    pressed. It calls [predict_password_strength] and draws the result
    card, six metrics and the recommendations. A call to Streamlit is
    recorded as the widget it draws, with the values the code puts into
    its template; the constant markup around them is left out. *)

(** What [x * 100] and the format [{x:.0f}] do to a float. *)
Class PyFloatFormat (float : Type) := {
  float_mul_int : float -> Z -> float;
  format_0f : float -> string
}.

Inductive Widget : Type :=
| Warning (text : string)
| Spinner (text : string)
| ResultCard (css_class title reason : string)
| Heading (text : string)
| Columns (n : Z)
| Metric (value label : string)
| TipBox (title : string) (tips : list string).

(** The handler can raise what the engine raises, and [IndexError] from
    indexing a list with the label. *)
Inductive ui_exn : Type :=
| Exn (e : exn)
| IndexError.

Inductive ui_outcome (A : Type) : Type :=
| Done (a : A)
| Failed (e : ui_exn).

Arguments Done {A} a.
Arguments Failed {A} e.

(** [l[i]] on a Python list: a negative index counts from the end. *)
Definition py_index {A} (l : list A) (i : Z) : option A :=
  let n := Z.of_nat (List.length l) in
  if (0 <=? i) && (i <? n) then nth_error l (Z.to_nat i)
  else if (- n <=? i) && (i <? 0) then nth_error l (Z.to_nat (n + i))
  else None.

(** [not l] on a Python sequence: true on the empty one. *)
Definition py_not {A} (l : list A) : bool :=
  match l with [] => true | _ :: _ => false end.

(** [s.upper()] on an ASCII string. *)
Definition upper_char (c : ascii) : ascii :=
  let n := N_of_ascii c in
  if ((97 <=? n) && (n <=? 122))%N then ascii_of_N (n - 32) else c.

Definition py_upper (s : string) : string :=
  string_of_list_ascii (map upper_char (list_ascii_of_string s)).

Definition strength_names : list string := ["Weak"; "Normal"; "Strong"].
Definition strength_colors : list string := ["weak"; "normal"; "strong"].
Definition strength_emojis : list string := ["🔴"; "🟡"; "🟢"].

Definition weak_tips : Widget :=
  TipBox "⚠️ Your password is weak. Improve it by:"
    ["Increasing length to at least 12 characters";
     "Adding uppercase letters (A-Z)";
     "Including numbers (0-9)";
     "Using special characters (!@#$%^&*)"].

Definition normal_tips : Widget :=
  TipBox "✅ Your password is decent. Make it stronger by:"
    ["Increasing length to 18+ characters";
     "Adding more character variety";
     "Avoiding common words or patterns";
     "Consider using a passphrase"].

Definition strong_tips : Widget :=
  TipBox "🎉 Excellent! Your password is strong!"
    ["Remember to use unique passwords for each account";
     "Consider using a password manager";
     "Enable two-factor authentication when possible";
     "Change passwords regularly"].

Section Page.

Context {char float : Type} {PC : PyChar char} {PF : PyFloat float}
  {PFF : PyFloatFormat float}.

(** The state of a run of the handler: the log of external calls and
    the widgets drawn so far, in order. *)
Definition UI (A : Type) : Type :=
  list (Call char float) * list Widget ->
  ui_outcome A * (list (Call char float) * list Widget).

Definition ui_ret {A} (a : A) : UI A := fun s => (Done a, s).

Definition ui_bind {A B} (c : UI A) (k : A -> UI B) : UI B :=
  fun s =>
    match c s with
    | (Done a, s') => k a s'
    | (Failed e, s') => (Failed e, s')
    end.

Notation "x <- c ;; k" := (ui_bind c (fun x => k))
  (at level 61, c at next level, right associativity).
Notation "c ;;; k" := (ui_bind c (fun _ => k))
  (at level 61, right associativity).

(** A computation of the engine, run inside the handler. *)
Definition engine {A} (c : M char float A) : UI A :=
  fun s =>
    match c (fst s) with
    | (Returned a, log') => (Done a, (log', snd s))
    | (Raised e, log') => (Failed (Exn e), (log', snd s))
    end.

Definition draw (w : Widget) : UI unit :=
  fun s => (Done tt, (fst s, snd s ++ [w])).

Definition index {A} (l : list A) (i : Z) : UI A :=
  fun s =>
    (match py_index l i with Some a => Done a | None => Failed IndexError end,
     s).

(** [f"{sum(1 for c in password if p(c)) / len(password) * 100:.0f}%"] *)
Definition percent (p : char -> bool) (password : list char) : UI string :=
  x <- engine (py_div (count_if p password) (len password)) ;;
  ui_ret (format_0f (float_mul_int x 100) ++ "%")%string.

Definition on_analyze (m : Models char float) (password : list char) : UI unit :=
  if py_not password then
    draw (Warning "⚠️ Please enter a password to analyze")
  else
    draw (Spinner "🔐 Analyzing password strength...") ;;;
    r <- engine (predict_password_strength m password) ;;
    let '(result, probabilities, reason) := r in
    color <- index strength_colors result ;;
    emoji <- index strength_emojis result ;;
    name <- index strength_names result ;;
    draw (ResultCard ("result-card result-" ++ color)
            (emoji ++ " Password Strength: " ++ py_upper name) reason) ;;;
    draw (Heading "### 📊 Password Analysis") ;;;
    draw (Columns 3) ;;;
    draw (Metric (str (len password)) "Characters") ;;;
    lowercase_pct <- percent islower password ;;
    draw (Metric lowercase_pct "Lowercase") ;;;
    uppercase_pct <- percent isupper password ;;
    draw (Metric uppercase_pct "Uppercase") ;;;
    draw (Columns 3) ;;;
    digit_pct <- percent isdigit password ;;
    draw (Metric digit_pct "Digits") ;;;
    special_pct <- percent (fun c => negb (isalnum c)) password ;;
    draw (Metric special_pct "Special Chars") ;;;
    draw (Metric (str (char_types password) ++ "/4") "Char Types") ;;;
    draw (Heading "### 💡 Recommendations") ;;;
    if result =? 0 then draw weak_tips
    else if result =? 1 then draw normal_tips
    else draw strong_tips.

End Page.

Module Binary64Format.

(** The integer nearest to [m * 2^e], ties to the even one. *)
Definition round_half_even (m e : Z) : Z :=
  if 0 <=? e then m * 2 ^ e
  else
    let d := 2 ^ (- e) in
    let q := m / d in
    match 2 * (m mod d) ?= d with
    | Lt => q
    | Gt => q + 1
    | Eq => if Z.even q then q else q + 1
    end.

Definition mul_int (x : spec_float) (n : Z) : spec_float :=
  SFmul Binary64.prec Binary64.emax x (Binary64.of_int n).

Definition format (x : spec_float) : string :=
  match x with
  | S754_zero s => if s then "-0" else "0"
  | S754_infinity s => if s then "-inf" else "inf"
  | S754_nan => "nan"
  | S754_finite s m e =>
      ((if s then "-" else "") ++ str (round_half_even (Zpos m) e))%string
  end.

End Binary64Format.

#[export] Instance binary64_PyFloatFormat : PyFloatFormat spec_float := {|
  float_mul_int := Binary64Format.mul_int;
  format_0f := Binary64Format.format
|}.

(** A vectorizer that raises. *)
Definition no_vectorizer : Models ascii spec_float := {|
  vectorizer_transform := fun _ => None;
  clf_predict := fun _ => Some 2;
  clf_predict_proba := fun _ => Some mostly_strong
|}.

(** Classifiers that answer a label outside 0, 1, 2. *)
Definition says_three : Models ascii spec_float :=
  stub_models [f_0_5] 3 mostly_strong.
Definition says_minus_one : Models ascii spec_float :=
  stub_models [f_0_5] (-1) mostly_strong.

(** ** Tactics *)

(** Decides which branch of the rule chain is taken, from the bounds in
    the context. *)
Ltac chain :=
  unfold rule_chain; rewrite ?Z.geb_leb;
  repeat match goal with
    | |- context [?a <=? ?b] => destruct (Z.leb_spec a b); try lia
    | |- context [?a =? ?b] => destruct (Z.eqb_spec a b); try lia
    end;
  cbn [andb fst snd]; try reflexivity; try lia.

(** Splits a goal along the branches of the rule chain and leaves the
    bounds of each branch in the context. *)
Ltac chain_cases :=
  unfold rule_chain; rewrite ?Z.geb_leb;
  repeat (match goal with
          | |- context [?a <=? ?b] => destruct (Z.leb_spec a b)
          | |- context [?a =? ?b] => destruct (Z.eqb_spec a b)
          end; cbn [andb fst snd]; cbv iota).

(** Closed comparisons on concrete passwords. *)
Ltac by_computation := vm_compute; repeat split; (discriminate || reflexivity).

(** * Properties *)

Section Properties.

Context {char float : Type} {PC : PyChar char} {PF : PyFloat float}.

Implicit Types (m : Models char float) (password : list char)
  (log : list (Call char float)) (v p : list float) (raw : Z).

(** ** The builtins *)

Lemma len_nonneg {A} (l : list A) : 0 <= len l.
Proof. unfold len. lia. Qed.

Lemma len_zero_iff {A} (l : list A) : len l = 0 <-> l = [].
Proof.
  unfold len. destruct l as [|a l]; simpl; split; intro E;
    try reflexivity; try discriminate; lia.
Qed.

Lemma fold_left_add_ones {A} (l : list A) (acc : Z) :
  fold_left Z.add (map (fun _ => 1) l) acc = acc + Z.of_nat (List.length l).
Proof.
  revert acc. induction l as [|a l IH]; intro acc.
  - simpl. lia.
  - cbn [map fold_left List.length]. rewrite IH. lia.
Qed.

(** The generator sum of the code counts the characters that satisfy
    the predicate. *)
Lemma count_if_count (q : char -> bool) password :
  count_if q password = count q password.
Proof.
  unfold count_if, count, py_sum. rewrite fold_left_add_ones. lia.
Qed.

Lemma count_bounds (q : char -> bool) password :
  0 <= count q password <= len password.
Proof.
  unfold count, len. pose proof (filter_length_le q password). lia.
Qed.

Lemma char_types_bounds password : 0 <= char_types password <= 4.
Proof.
  unfold char_types, py_sum. cbn [fold_left].
  destruct (has_lower password), (has_upper password),
    (has_digit password), (has_special password); cbn; lia.
Qed.

(** ** The rule chain, rule by rule *)

Lemma rule1 n ct raw :
  n <= 6 -> rule_chain n ct raw = (0, "Too short (≤6 characters)").
Proof. intros. chain. Qed.

Lemma rule2 n ct :
  6 < n <= 12 ->
  rule_chain n ct 2 = (1, "Too short to be strong (≤12 chars)").
Proof. intros. chain. Qed.

Lemma rule3 n ct raw :
  18 <= n -> 3 <= ct ->
  rule_chain n ct raw =
    (2, ("Long password (" ++ str n ++ " chars) with good diversity ("
           ++ str ct ++ "/4 types)")%string).
Proof. intros. chain. Qed.

Lemma rule4 n ct raw :
  30 <= n -> ct < 3 ->
  rule_chain n ct raw = (2, "Very long password (≥30 chars)").
Proof. intros. chain. Qed.

Lemma rule5 n ct :
  15 <= n < 30 -> n < 18 \/ ct < 3 ->
  rule_chain n ct 0 = (1, "Too long to be weak (≥15 chars)").
Proof. intros. chain. Qed.

Lemma no_rule_short n ct raw :
  6 < n <= 12 -> raw <> 2 ->
  rule_chain n ct raw = (raw, "Model prediction").
Proof. intros. chain. Qed.

Lemma no_rule_middle n ct raw :
  12 < n < 15 -> rule_chain n ct raw = (raw, "Model prediction").
Proof. intros. chain. Qed.

Lemma no_rule_long n ct raw :
  15 <= n < 30 -> n < 18 \/ ct < 3 -> raw <> 0 ->
  rule_chain n ct raw = (raw, "Model prediction").
Proof. intros. chain. Qed.

(** ** One run of the function *)

Lemma raw_prediction_Some m password raw p :
  raw_prediction m password = Some (raw, p) <->
  exists v,
    vectorizer_transform m password = Some v /\
    clf_predict m (feature_vector password v) = Some raw /\
    clf_predict_proba m (feature_vector password v) = Some p.
Proof.
  unfold raw_prediction. split.
  - destruct (vectorizer_transform m password) as [v|] eqn:Hv; [|discriminate].
    destruct (clf_predict m (feature_vector password v)) as [r|] eqn:Hraw;
      [|discriminate].
    destruct (clf_predict_proba m (feature_vector password v)) as [q|] eqn:Hp;
      [|discriminate].
    intro E. injection E as <- <-. exists v. repeat split; assumption.
  - intros (v & Hv & Hraw & Hp). rewrite Hv, Hraw, Hp. reflexivity.
Qed.

(** The three fractions are computed without a division by zero, and
    the matrix handed to the classifier is [feature_vector]. *)
Lemma run_until_transform m password log :
  len password <> 0 ->
  predict_password_strength m password log =
    match vectorizer_transform m password with
    | None => (Raised VectorizerError, log ++ [TransformCall password])
    | Some v =>
        let x := feature_vector password v in
        bind (call_predict m x) (fun result =>
        bind (call_predict_proba m x) (fun probabilities =>
          let (result', reason) :=
            rule_chain (len password) (char_types password) result in
          ret (result', probabilities, reason)))
        (log ++ [TransformCall password])
    end.
Proof.
  intro Hlen. unfold predict_password_strength, py_div.
  destruct (Z.eqb_spec (len password) 0) as [E|_]; [contradiction|].
  rewrite !count_if_count.
  unfold bind at 1 2 3 4. unfold ret at 1 2 3.
  unfold call_transform, external.
  destruct (vectorizer_transform m password) as [v|]; reflexivity.
Qed.

Lemma run_returns m password log v raw p :
  len password <> 0 ->
  vectorizer_transform m password = Some v ->
  clf_predict m (feature_vector password v) = Some raw ->
  clf_predict_proba m (feature_vector password v) = Some p ->
  predict_password_strength m password log =
    (Returned (fst (rule_chain (len password) (char_types password) raw), p,
               snd (rule_chain (len password) (char_types password) raw)),
     log ++ [TransformCall password;
             PredictCall (feature_vector password v);
             PredictProbaCall (feature_vector password v)]).
Proof.
  intros Hlen Hv Hraw Hp. rewrite run_until_transform by assumption.
  rewrite Hv. cbv zeta.
  unfold bind, call_predict, call_predict_proba, external.
  rewrite Hraw, Hp.
  destruct (rule_chain (len password) (char_types password) raw) as [l r].
  unfold ret. cbn [fst snd]. rewrite <- !app_assoc. reflexivity.
Qed.

Lemma classify_returns m password log raw p :
  len password <> 0 ->
  raw_prediction m password = Some (raw, p) ->
  fst (predict_password_strength m password log) =
    Returned (fst (rule_chain (len password) (char_types password) raw), p,
              snd (rule_chain (len password) (char_types password) raw)).
Proof.
  intros Hlen H. apply raw_prediction_Some in H as (v & Hv & Hraw & Hp).
  rewrite (run_returns m password log v raw p) by assumption. reflexivity.
Qed.

(** ** The claims of the specification *)

(** C3. For the empty password the function returns exactly
    [(0, [1.0, 0.0, 0.0], "Empty password")], whatever the models are, and
    the log of external calls is left as it was: neither the vectorizer's
    transform nor the classifier's predict or predict_proba is invoked. *)
Theorem empty_password_short_circuit m log :
  predict_password_strength m [] log =
    (Returned (0, [lit_1_0; lit_0_0; lit_0_0], "Empty password"), log).
Proof. reflexivity. Qed.

(** C4. For every password of length 1 to 6 the function returns the
    label Weak (0) with the reason "Too short (≤6 characters)", whatever
    the raw label of the classifier. *)
Theorem short_is_weak m password log raw p :
  1 <= len password <= 6 ->
  raw_prediction m password = Some (raw, p) ->
  fst (predict_password_strength m password log) =
    Returned (0, p, "Too short (≤6 characters)").
Proof.
  intros Hlen Hraw.
  rewrite (classify_returns m password log raw p) by (assumption || lia).
  rewrite rule1 by lia. reflexivity.
Qed.

(** C5. For every password of length 7 to 12 the returned label is never
    Strong (2): a raw label Strong is replaced by Normal (1) with the
    reason "Too short to be strong (≤12 chars)", and any other raw label
    stands, with the reason "Model prediction". *)
Theorem medium_short_never_strong m password log raw p :
  7 <= len password <= 12 ->
  raw_prediction m password = Some (raw, p) ->
  exists label reason,
    fst (predict_password_strength m password log) = Returned (label, p, reason) /\
    label <> 2 /\
    (raw = 2 -> label = 1 /\ reason = "Too short to be strong (≤12 chars)") /\
    (raw <> 2 -> label = raw /\ reason = "Model prediction").
Proof.
  intros Hlen Hraw.
  rewrite (classify_returns m password log raw p) by (assumption || lia).
  destruct (Z.eq_dec raw 2) as [->|Hne].
  - rewrite rule2 by lia. exists 1, "Too short to be strong (≤12 chars)".
    cbn [fst snd]. split; [reflexivity|]. split; [lia|]. split.
    + intros _. split; reflexivity.
    + intro H. contradiction H. reflexivity.
  - rewrite no_rule_short by (assumption || lia). exists raw, "Model prediction".
    cbn [fst snd]. split; [reflexivity|]. split; [assumption|]. split.
    + intro H. contradiction.
    + intros _. split; reflexivity.
Qed.

(** C6. For every password of length at least 18 with at least three of
    the four character types the function returns the label Strong (2),
    whatever the raw label, and the reason contains the length and the
    number of character types, each as the Standard Library prints an
    integer in decimal ([NilZero.string_of_int]): it is
    "Long password (LEN chars) with good diversity (TYPES/4 types)" with
    these two numerals in place of LEN and TYPES. *)
Theorem long_diverse_is_strong m password log raw p :
  18 <= len password ->
  3 <= char_types password ->
  raw_prediction m password = Some (raw, p) ->
  fst (predict_password_strength m password log) =
    Returned (2, p,
              ("Long password ("
                 ++ NilZero.string_of_int (Z.to_int (len password))
                 ++ " chars) with good diversity ("
                 ++ NilZero.string_of_int (Z.to_int (char_types password))
                 ++ "/4 types)")%string).
Proof.
  intros Hlen Hct Hraw.
  rewrite (classify_returns m password log raw p) by (assumption || lia).
  rewrite rule3 by assumption. reflexivity.
Qed.

(** C2. For every password of length at least 30 the function returns
    the label Strong (2), whatever the raw label and whatever the
    character diversity. *)
Theorem very_long_is_strong m password log raw p :
  30 <= len password ->
  raw_prediction m password = Some (raw, p) ->
  exists reason,
    fst (predict_password_strength m password log) = Returned (2, p, reason).
Proof.
  intros Hlen Hraw.
  rewrite (classify_returns m password log raw p) by (assumption || lia).
  destruct (Z_lt_le_dec (char_types password) 3) as [Hct|Hct].
  - rewrite rule4 by assumption. eexists. reflexivity.
  - rewrite rule3 by (assumption || lia). eexists. reflexivity.
Qed.

(** C1, amended. For every password of length at least 15 whose raw label
    is Weak (0) the function returns the label Normal (1), with the reason
    "Too long to be weak (≥15 chars)", unless the rule for long diverse
    passwords (length at least 18 with at least three character types) or
    the rule for very long passwords (length at least 30) applies; where
    one of these applies the label is Strong (2). *)
Theorem weak_long_is_normal_or_strong m password log p :
  15 <= len password ->
  raw_prediction m password = Some (0, p) ->
  exists label reason,
    fst (predict_password_strength m password log) = Returned (label, p, reason) /\
    (len password < 30 /\ (len password < 18 \/ char_types password < 3) ->
     label = 1 /\ reason = "Too long to be weak (≥15 chars)") /\
    (30 <= len password \/ (18 <= len password /\ 3 <= char_types password) ->
     label = 2).
Proof.
  intros Hlen Hraw.
  rewrite (classify_returns m password log 0 p) by (assumption || lia).
  destruct (Z_lt_le_dec (len password) 30) as [H30|H30].
  - destruct (Z_lt_le_dec (len password) 18) as [H18|H18];
      [|destruct (Z_lt_le_dec (char_types password) 3) as [Hct|Hct]].
    + rewrite rule5 by lia. eexists; eexists. cbn [fst snd].
      split; [reflexivity|]. split; [intros _; split; reflexivity | lia].
    + rewrite rule5 by lia. eexists; eexists. cbn [fst snd].
      split; [reflexivity|]. split; [intros _; split; reflexivity | lia].
    + rewrite rule3 by assumption. eexists; eexists. cbn [fst snd].
      split; [reflexivity|]. split; [lia | reflexivity].
  - destruct (Z_lt_le_dec (char_types password) 3) as [Hct|Hct].
    + rewrite rule4 by assumption. eexists; eexists. cbn [fst snd].
      split; [reflexivity|]. split; [lia | reflexivity].
    + rewrite rule3 by (assumption || lia). eexists; eexists. cbn [fst snd].
      split; [reflexivity|]. split; [lia | reflexivity].
Qed.

(** C9. For every password of length 13 or 14 no rule fires: the function
    returns the raw label of the classifier, whatever it is, with the
    reason "Model prediction". *)
Theorem length_13_14_model_prediction m password log raw p :
  len password = 13 \/ len password = 14 ->
  raw_prediction m password = Some (raw, p) ->
  fst (predict_password_strength m password log) =
    Returned (raw, p, "Model prediction").
Proof.
  intros Hlen Hraw.
  rewrite (classify_returns m password log raw p) by (assumption || lia).
  rewrite no_rule_middle by lia. reflexivity.
Qed.

(** C10. For every password of length at least 13 whose raw label is
    Strong (2) the function returns the label Strong (2). *)
Theorem strong_stands_above_12 m password log p :
  13 <= len password ->
  raw_prediction m password = Some (2, p) ->
  exists reason,
    fst (predict_password_strength m password log) = Returned (2, p, reason).
Proof.
  intros Hlen Hraw.
  rewrite (classify_returns m password log 2 p) by (assumption || lia).
  destruct (Z_lt_le_dec (len password) 15) as [H15|H15].
  { rewrite no_rule_middle by lia. eexists. reflexivity. }
  destruct (Z_lt_le_dec (len password) 18) as [H18|H18].
  { rewrite no_rule_long by lia. eexists. reflexivity. }
  destruct (Z_lt_le_dec (char_types password) 3) as [Hct|Hct].
  - destruct (Z_lt_le_dec (len password) 30) as [H30|H30].
    + rewrite no_rule_long by lia. eexists. reflexivity.
    + rewrite rule4 by assumption. eexists. reflexivity.
  - rewrite rule3 by assumption. eexists. reflexivity.
Qed.

(** C7. For every non-empty password the probabilities of the result are
    the list the classifier's predict_proba returned, as it is, also when
    a rule overrides the raw label: the rule chain gives the label and
    the reason and nothing else. *)
Theorem probabilities_unmodified m password log v raw p :
  password <> [] ->
  vectorizer_transform m password = Some v ->
  clf_predict m (feature_vector password v) = Some raw ->
  clf_predict_proba m (feature_vector password v) = Some p ->
  fst (predict_password_strength m password log) =
    Returned (fst (rule_chain (len password) (char_types password) raw),
              p,
              snd (rule_chain (len password) (char_types password) raw)).
Proof.
  intros Hne Hv Hraw Hp.
  rewrite (run_returns m password log v raw p); try assumption.
  - reflexivity.
  - rewrite len_zero_iff. assumption.
Qed.

(** C8. For every non-empty password on which the vectorizer returns [v],
    the classifier is called, and every call to it, first predict and
    then (if predict returned) predict_proba, is given [v] followed by the
    length, the lowercase fraction, the uppercase fraction and the digit
    fraction, in this order, each fraction being the number of characters
    that satisfy the predicate divided by the length. *)
Theorem classifier_input_is_feature_vector m password log v :
  password <> [] ->
  vectorizer_transform m password = Some v ->
  let n := Z.of_nat (List.length password) in
  let x := v ++ [float_of_int n;
                 true_div (Z.of_nat (List.length (filter islower password))) n;
                 true_div (Z.of_nat (List.length (filter isupper password))) n;
                 true_div (Z.of_nat (List.length (filter isdigit password))) n] in
  exists o rest,
    predict_password_strength m password log =
      (o, log ++ TransformCall password :: PredictCall x :: rest) /\
    (rest = [] \/ rest = [PredictProbaCall x]).
Proof.
  intros Hne Hv n x.
  assert (Hlen : len password <> 0) by (rewrite len_zero_iff; assumption).
  rewrite run_until_transform by assumption. rewrite Hv. cbv zeta.
  change (feature_vector password v) with x.
  unfold bind, call_predict, call_predict_proba, external.
  destruct (clf_predict m x) as [raw|].
  - destruct (clf_predict_proba m x) as [p|].
    + destruct (rule_chain (len password) (char_types password) raw) as [l r].
      unfold ret. eexists; exists [PredictProbaCall x]. split.
      * rewrite <- !app_assoc. reflexivity.
      * right; reflexivity.
    + eexists; exists [PredictProbaCall x]. split.
      * rewrite <- !app_assoc. reflexivity.
      * right; reflexivity.
  - eexists; exists []. split.
    + rewrite <- !app_assoc. reflexivity.
    + left; reflexivity.
Qed.

End Properties.

(** * The engine at work on concrete passwords *)

Example str_19 : str 19 = "19".
Proof. reflexivity. Qed.

Example literals_binary64 :
  float_of_int 1 = f_1_0 /\ float_of_int 0 = f_0_0 /\
  true_div 1 2 = f_0_5 /\ true_div 1 4 = f_0_25.
Proof. repeat split; reflexivity. Qed.

Example TheQuixy_profile : len TheQuixy = 19 /\ char_types TheQuixy = 4.
Proof. split; reflexivity. Qed.

Example thirty_one_lowercase_profile :
  len thirty_one_lowercase = 31 /\ char_types thirty_one_lowercase = 1.
Proof. split; reflexivity. Qed.

(** A whole run: the result and the calls made, in order. *)
Example abc123_run :
  predict_password_strength says_strong abc123 [] =
    (Returned (0, mostly_strong, "Too short (≤6 characters)"),
     let x := [f_0_5; float_of_int 6; f_0_5; f_0_0; f_0_5] in
     [TransformCall abc123; PredictCall x; PredictProbaCall x]).
Proof. reflexivity. Qed.

(** A classifier that raises: the exception reaches the caller, after the
    vectorizer and predict have been called. *)
Example abc123_classifier_raises :
  predict_password_strength (broken_models [f_0_5]) abc123 [] =
    (Raised ClassifierError,
     [TransformCall abc123;
      PredictCall [f_0_5; float_of_int 6; f_0_5; f_0_0; f_0_5]]).
Proof. reflexivity. Qed.

Example Password123_stays_normal :
  fst (predict_password_strength says_normal Password123 []) =
    Returned (1, mostly_weak, "Model prediction").
Proof. reflexivity. Qed.

Example horse_battery_run :
  len horse_battery = 20 /\ char_types horse_battery = 2 /\
  fst (predict_password_strength says_weak horse_battery []) =
    Returned (1, mostly_weak, "Too long to be weak (≥15 chars)").
Proof. repeat split; reflexivity. Qed.

Example thirty_one_lowercase_run :
  fst (predict_password_strength says_weak thirty_one_lowercase []) =
    Returned (2, mostly_weak, "Very long password (≥30 chars)").
Proof. reflexivity. Qed.

(** ** C1 as stated does not hold *)

(** C1, as stated: a password of length at least 15 with raw label Weak
    would always come out Normal. The 19 characters of
    "TheQuixy#234522wish" have four character types, so the rule for long
    diverse passwords fires before the rule for weak long ones, and the
    label is Strong. *)
Lemma weak_long_not_always_normal :
  ~ (forall (m : Models ascii spec_float) (password : list ascii)
            (log : list (Call ascii spec_float)) (p : list spec_float),
        password <> [] ->
        15 <= len password ->
        raw_prediction m password = Some (0, p) ->
        exists reason,
          fst (predict_password_strength m password log) =
            Returned (1, p, reason)).
Proof.
  intro H.
  destruct (H says_weak TheQuixy [] mostly_weak) as [reason E].
  - discriminate.
  - vm_compute. discriminate.
  - reflexivity.
  - vm_compute in E. discriminate.
Qed.

Example TheQuixy_run :
  raw_prediction says_weak TheQuixy = Some (0, mostly_weak) /\
  fst (predict_password_strength says_weak TheQuixy []) =
    Returned (2, mostly_weak,
              "Long password (19 chars) with good diversity (4/4 types)").
Proof. split; reflexivity. Qed.

(** ** The theorems at concrete inputs *)

Lemma weak_long_is_normal_or_strong_witness :
  15 <= len horse_battery /\
  raw_prediction says_weak horse_battery = Some (0, mostly_weak) /\
  exists label reason,
    fst (predict_password_strength says_weak horse_battery []) =
      Returned (label, mostly_weak, reason) /\
    (len horse_battery < 30 /\
     (len horse_battery < 18 \/ char_types horse_battery < 3) ->
     label = 1 /\ reason = "Too long to be weak (≥15 chars)") /\
    (30 <= len horse_battery \/
     (18 <= len horse_battery /\ 3 <= char_types horse_battery) ->
     label = 2).
Proof.
  assert (H1 : 15 <= len horse_battery) by by_computation.
  assert (H2 : raw_prediction says_weak horse_battery = Some (0, mostly_weak))
    by reflexivity.
  exact (conj H1 (conj H2
           (weak_long_is_normal_or_strong says_weak horse_battery []
              mostly_weak H1 H2))).
Defined.

Lemma very_long_is_strong_witness :
  30 <= len thirty_one_lowercase /\
  raw_prediction says_weak thirty_one_lowercase = Some (0, mostly_weak) /\
  exists reason,
    fst (predict_password_strength says_weak thirty_one_lowercase []) =
      Returned (2, mostly_weak, reason).
Proof.
  assert (H1 : 30 <= len thirty_one_lowercase) by by_computation.
  assert (H2 : raw_prediction says_weak thirty_one_lowercase
               = Some (0, mostly_weak)) by reflexivity.
  exact (conj H1 (conj H2
           (very_long_is_strong says_weak thirty_one_lowercase [] 0 mostly_weak
              H1 H2))).
Defined.

Lemma short_is_weak_witness :
  (1 <= len abc123 <= 6) /\
  raw_prediction says_strong abc123 = Some (2, mostly_strong) /\
  fst (predict_password_strength says_strong abc123 []) =
    Returned (0, mostly_strong, "Too short (≤6 characters)").
Proof.
  assert (H1 : 1 <= len abc123 <= 6) by by_computation.
  assert (H2 : raw_prediction says_strong abc123 = Some (2, mostly_strong))
    by reflexivity.
  exact (conj H1 (conj H2
           (short_is_weak says_strong abc123 [] 2 mostly_strong H1 H2))).
Defined.

Lemma medium_short_never_strong_witness :
  (7 <= len Password123 <= 12) /\
  raw_prediction says_strong Password123 = Some (2, mostly_strong) /\
  exists label reason,
    fst (predict_password_strength says_strong Password123 []) =
      Returned (label, mostly_strong, reason) /\
    label <> 2 /\
    (2 = 2 -> label = 1 /\ reason = "Too short to be strong (≤12 chars)") /\
    (2 <> 2 -> label = 2 /\ reason = "Model prediction").
Proof.
  assert (H1 : 7 <= len Password123 <= 12) by by_computation.
  assert (H2 : raw_prediction says_strong Password123
               = Some (2, mostly_strong)) by reflexivity.
  exact (conj H1 (conj H2
           (medium_short_never_strong says_strong Password123 [] 2
              mostly_strong H1 H2))).
Defined.

Lemma long_diverse_is_strong_witness :
  18 <= len TheQuixy /\
  3 <= char_types TheQuixy /\
  raw_prediction says_weak TheQuixy = Some (0, mostly_weak) /\
  fst (predict_password_strength says_weak TheQuixy []) =
    Returned (2, mostly_weak,
              "Long password (19 chars) with good diversity (4/4 types)").
Proof.
  assert (H1 : 18 <= len TheQuixy) by by_computation.
  assert (H2 : 3 <= char_types TheQuixy) by by_computation.
  assert (H3 : raw_prediction says_weak TheQuixy = Some (0, mostly_weak))
    by reflexivity.
  exact (conj H1 (conj H2 (conj H3
           (long_diverse_is_strong says_weak TheQuixy [] 0 mostly_weak
              H1 H2 H3)))).
Defined.

Lemma length_13_14_model_prediction_witness :
  (len Password1234 = 13 \/ len Password1234 = 14) /\
  raw_prediction says_weak Password1234 = Some (0, mostly_weak) /\
  fst (predict_password_strength says_weak Password1234 []) =
    Returned (0, mostly_weak, "Model prediction").
Proof.
  assert (H1 : len Password1234 = 13 \/ len Password1234 = 14)
    by (left; reflexivity).
  assert (H2 : raw_prediction says_weak Password1234 = Some (0, mostly_weak))
    by reflexivity.
  exact (conj H1 (conj H2
           (length_13_14_model_prediction says_weak Password1234 [] 0
              mostly_weak H1 H2))).
Defined.

Lemma strong_stands_above_12_witness :
  13 <= len Password12345 /\
  raw_prediction says_strong Password12345 = Some (2, mostly_strong) /\
  exists reason,
    fst (predict_password_strength says_strong Password12345 []) =
      Returned (2, mostly_strong, reason).
Proof.
  assert (H1 : 13 <= len Password12345) by by_computation.
  assert (H2 : raw_prediction says_strong Password12345
               = Some (2, mostly_strong)) by reflexivity.
  exact (conj H1 (conj H2
           (strong_stands_above_12 says_strong Password12345 [] mostly_strong
              H1 H2))).
Defined.

Lemma probabilities_unmodified_witness :
  abc123 <> [] /\
  vectorizer_transform says_strong abc123 = Some [f_0_5] /\
  clf_predict says_strong (feature_vector abc123 [f_0_5]) = Some 2 /\
  clf_predict_proba says_strong (feature_vector abc123 [f_0_5])
    = Some mostly_strong /\
  fst (predict_password_strength says_strong abc123 []) =
    Returned (0, mostly_strong, "Too short (≤6 characters)").
Proof.
  assert (H1 : abc123 <> []) by discriminate.
  assert (H2 : vectorizer_transform says_strong abc123 = Some [f_0_5])
    by reflexivity.
  assert (H3 : clf_predict says_strong (feature_vector abc123 [f_0_5]) = Some 2)
    by reflexivity.
  assert (H4 : clf_predict_proba says_strong (feature_vector abc123 [f_0_5])
               = Some mostly_strong) by reflexivity.
  exact (conj H1 (conj H2 (conj H3 (conj H4
           (probabilities_unmodified says_strong abc123 [] [f_0_5] 2
              mostly_strong H1 H2 H3 H4))))).
Defined.

Lemma classifier_input_is_feature_vector_witness :
  abc123 <> [] /\
  vectorizer_transform says_strong abc123 = Some [f_0_5] /\
  exists o rest,
    predict_password_strength says_strong abc123 [] =
      (o, [] ++ TransformCall abc123
             :: PredictCall [f_0_5; float_of_int 6; f_0_5; f_0_0; f_0_5]
             :: rest) /\
    (rest = [] \/
     rest = [PredictProbaCall [f_0_5; float_of_int 6; f_0_5; f_0_0; f_0_5]]).
Proof.
  assert (H1 : abc123 <> []) by discriminate.
  assert (H2 : vectorizer_transform says_strong abc123 = Some [f_0_5])
    by reflexivity.
  exact (conj H1 (conj H2
           (classifier_input_is_feature_vector says_strong abc123 [] [f_0_5]
              H1 H2))).
Defined.


(** * Further properties of the engine *)

Section EngineProperties.

Context {char float : Type} {PC : PyChar char} {PF : PyFloat float}.

Implicit Types (m : Models char float) (password : list char)
  (log : list (Call char float)) (v p : list float) (raw : Z).

(** ** The rule chain as a function of its three arguments *)

Lemma rule_chain_label_range n ct raw :
  0 <= raw <= 2 -> 0 <= fst (rule_chain n ct raw) <= 2.
Proof. intro H. chain_cases; lia. Qed.

Lemma rule_chain_reason_nonempty n ct raw :
  snd (rule_chain n ct raw) <> "".
Proof. chain_cases; discriminate. Qed.

Lemma rule_chain_reason_not_empty_password n ct raw :
  snd (rule_chain n ct raw) <> "Empty password".
Proof. chain_cases; discriminate. Qed.

Lemma rule_chain_strong_iff n ct raw :
  fst (rule_chain n ct raw) = 2 <->
  (13 <= n /\ raw = 2) \/ (18 <= n /\ 3 <= ct) \/ 30 <= n.
Proof. chain_cases; lia. Qed.

Lemma rule_chain_weak_iff n ct raw :
  fst (rule_chain n ct raw) = 0 <-> n <= 6 \/ (n <= 14 /\ raw = 0).
Proof. chain_cases; lia. Qed.

Lemma rule_chain_direction n ct raw :
  (13 <= n -> raw <= 2 -> raw <= fst (rule_chain n ct raw)) /\
  (n <= 12 -> 0 <= raw -> fst (rule_chain n ct raw) <= raw).
Proof. chain_cases; lia. Qed.

Lemma rule_chain_model_prediction n ct raw :
  snd (rule_chain n ct raw) = "Model prediction" ->
  fst (rule_chain n ct raw) = raw.
Proof. chain_cases; (discriminate || reflexivity). Qed.

Lemma rule_chain_monotone n n' ct ct' raw raw' :
  n <= n' -> ct <= ct' -> 0 <= raw -> raw <= raw' -> raw' <= 2 ->
  fst (rule_chain n ct raw) <= fst (rule_chain n' ct' raw').
Proof. intros. chain_cases; lia. Qed.

(** ** What a run returns *)

Lemma nonempty_len password : password <> [] -> len password <> 0.
Proof. intro H. rewrite len_zero_iff. assumption. Qed.

(** X1. Whenever the models answer a raw label among 0, 1 and 2, the
    function returns, for the empty password too, and the label it returns
    is among 0, 1 and 2 and the reason is not the empty string. *)
Theorem label_in_range_reason_nonempty m password log raw p :
  raw_prediction m password = Some (raw, p) ->
  0 <= raw <= 2 ->
  exists label probs reason,
    fst (predict_password_strength m password log) =
      Returned (label, probs, reason) /\
    0 <= label <= 2 /\ reason <> "".
Proof.
  intros Hraw Hr. destruct password as [|c password].
  - exists 0, [lit_1_0; lit_0_0; lit_0_0], "Empty password".
    split; [reflexivity|]. split; [lia | discriminate].
  - rewrite (classify_returns m (c :: password) log raw p);
      [|apply nonempty_len; discriminate | assumption].
    eexists; eexists; eexists. split; [reflexivity|]. split.
    + apply rule_chain_label_range. assumption.
    + apply rule_chain_reason_nonempty.
Qed.

(** X2. The returned label is Strong (2) exactly when the raw label is
    Strong and the password has at least 13 characters, or the password
    has at least 18 characters of at least three types, or it has at
    least 30 characters. *)
Theorem strong_iff m password log raw p :
  password <> [] ->
  raw_prediction m password = Some (raw, p) ->
  exists label reason,
    fst (predict_password_strength m password log) =
      Returned (label, p, reason) /\
    (label = 2 <->
     (13 <= len password /\ raw = 2) \/
     (18 <= len password /\ 3 <= char_types password) \/
     30 <= len password).
Proof.
  intros Hne Hraw.
  rewrite (classify_returns m password log raw p)
    by (assumption || apply nonempty_len; assumption).
  eexists; eexists. split; [reflexivity|]. apply rule_chain_strong_iff.
Qed.

(** X3. The returned label is Weak (0) exactly when the password has at
    most 6 characters, or the raw label is Weak and the password has at
    most 14 characters. *)
Theorem weak_iff m password log raw p :
  password <> [] ->
  raw_prediction m password = Some (raw, p) ->
  exists label reason,
    fst (predict_password_strength m password log) =
      Returned (label, p, reason) /\
    (label = 0 <-> len password <= 6 \/ (len password <= 14 /\ raw = 0)).
Proof.
  intros Hne Hraw.
  rewrite (classify_returns m password log raw p)
    by (assumption || apply nonempty_len; assumption).
  eexists; eexists. split; [reflexivity|]. apply rule_chain_weak_iff.
Qed.

(** X4. The rules only push one way: from 13 characters on the returned
    label is never below a raw label among 0, 1, 2, and up to 12
    characters it is never above it. *)
Theorem overrides_push_one_way m password log raw p :
  password <> [] ->
  raw_prediction m password = Some (raw, p) ->
  0 <= raw <= 2 ->
  exists label reason,
    fst (predict_password_strength m password log) =
      Returned (label, p, reason) /\
    (13 <= len password -> raw <= label) /\
    (len password <= 12 -> label <= raw).
Proof.
  intros Hne Hraw Hr.
  rewrite (classify_returns m password log raw p)
    by (assumption || apply nonempty_len; assumption).
  eexists; eexists. split; [reflexivity|].
  pose proof (rule_chain_direction (len password) (char_types password) raw)
    as [Hup Hdown].
  split; intro; [apply Hup | apply Hdown]; lia.
Qed.

(** X5. A result whose reason is "Model prediction" carries the raw label
    of the classifier: whenever the returned label differs from the raw
    one, the reason names a rule. *)
Theorem model_prediction_means_raw_label m password log raw p :
  password <> [] ->
  raw_prediction m password = Some (raw, p) ->
  exists label reason,
    fst (predict_password_strength m password log) =
      Returned (label, p, reason) /\
    (reason = "Model prediction" -> label = raw) /\
    (label <> raw -> reason <> "Model prediction").
Proof.
  intros Hne Hraw.
  rewrite (classify_returns m password log raw p)
    by (assumption || apply nonempty_len; assumption).
  eexists; eexists. split; [reflexivity|].
  pose proof (rule_chain_model_prediction (len password)
                (char_types password) raw) as H.
  split; [exact H|]. intros Hd E. apply Hd, H, E.
Qed.

(** X6. The returned label is monotone: of two passwords, the one that is
    at least as long, has at least as many character types and gets at
    least as high a raw label (raw labels among 0, 1, 2) never gets the
    lower label. *)
Theorem label_monotone m m' password password' log log' raw raw' p p' :
  password <> [] ->
  raw_prediction m password = Some (raw, p) ->
  raw_prediction m' password' = Some (raw', p') ->
  len password <= len password' ->
  char_types password <= char_types password' ->
  0 <= raw -> raw <= raw' -> raw' <= 2 ->
  exists label reason label' reason',
    fst (predict_password_strength m password log) =
      Returned (label, p, reason) /\
    fst (predict_password_strength m' password' log') =
      Returned (label', p', reason') /\
    label <= label'.
Proof.
  intros Hne Hraw Hraw' Hlen Hct H0 Hle H2.
  pose proof (nonempty_len password Hne) as Hn.
  pose proof (len_nonneg password) as Hpos.
  rewrite (classify_returns m password log raw p) by assumption.
  rewrite (classify_returns m' password' log' raw' p') by (assumption || lia).
  do 4 eexists. split; [reflexivity|]. split; [reflexivity|].
  apply rule_chain_monotone; assumption.
Qed.

(** ** When a call raises *)

(** X7. If the vectorizer raises on a non-empty password, the function
    raises, and the classifier is never called: the only call made is the
    transform of the password. *)
Theorem vectorizer_failure_propagates m password log :
  password <> [] ->
  vectorizer_transform m password = None ->
  predict_password_strength m password log =
    (Raised VectorizerError, log ++ [TransformCall password]).
Proof.
  intros Hne Hv.
  rewrite run_until_transform by (apply nonempty_len; assumption).
  rewrite Hv. reflexivity.
Qed.

(** X8. If predict raises, the function raises, and predict_proba is
    never called, whatever it would answer. *)
Theorem predict_failure_propagates m password log v :
  password <> [] ->
  vectorizer_transform m password = Some v ->
  clf_predict m (feature_vector password v) = None ->
  predict_password_strength m password log =
    (Raised ClassifierError,
     log ++ [TransformCall password; PredictCall (feature_vector password v)]).
Proof.
  intros Hne Hv Hp.
  rewrite run_until_transform by (apply nonempty_len; assumption).
  rewrite Hv. cbv zeta. unfold bind, call_predict, external. rewrite Hp.
  rewrite <- app_assoc. reflexivity.
Qed.

Lemma returned_inv m password log label probs reason :
  password <> [] ->
  fst (predict_password_strength m password log) =
    Returned (label, probs, reason) ->
  exists raw,
    raw_prediction m password = Some (raw, probs) /\
    label = fst (rule_chain (len password) (char_types password) raw) /\
    reason = snd (rule_chain (len password) (char_types password) raw).
Proof.
  intros Hne. rewrite run_until_transform by (apply nonempty_len; assumption).
  unfold raw_prediction.
  destruct (vectorizer_transform m password) as [v|]; [|discriminate].
  cbv zeta. unfold bind, call_predict, call_predict_proba, external.
  destruct (clf_predict m (feature_vector password v)) as [raw|];
    [|discriminate].
  destruct (clf_predict_proba m (feature_vector password v)) as [q|];
    [|discriminate].
  destruct (rule_chain (len password) (char_types password) raw) as [l r]
    eqn:Erc.
  unfold ret. cbn [fst snd]. intro E. injection E as <- <- <-.
  exists raw. rewrite Erc. repeat split; reflexivity.
Qed.

(** X9. On a non-empty password the function returns a result exactly
    when the vectorizer, predict and predict_proba all return; if one of
    them raises, it raises. *)
Theorem returns_iff_models_return m password log :
  password <> [] ->
  (exists r, fst (predict_password_strength m password log) = Returned r) <->
  (exists raw p, raw_prediction m password = Some (raw, p)).
Proof.
  intro Hne. split.
  - intros [[[label probs] reason] E].
    destruct (returned_inv m password log label probs reason Hne E)
      as (raw & Hraw & _).
    exists raw, probs. assumption.
  - intros (raw & p & Hraw).
    rewrite (classify_returns m password log raw p)
      by (assumption || apply nonempty_len; assumption).
    eexists. reflexivity.
Qed.


(** ** Counts and the character profile *)

(** X11. A character class is present in the profile exactly when the
    count that is the numerator of its fraction is positive. *)
Theorem any_iff_count_positive (q : char -> bool) password :
  any q password = true <-> 0 < count_if q password.
Proof.
  rewrite count_if_count. unfold any, count.
  induction password as [|c password IH]; cbn [existsb filter].
  - cbn. split; [discriminate | lia].
  - destruct (q c); cbn [orb List.length].
    + split; [lia | reflexivity].
    + exact IH.
Qed.

(** X12. The count of a class lies between 0 and the length of the
    password, and it equals the length exactly when every character is
    in the class. *)
Theorem count_if_bounds (q : char -> bool) password :
  0 <= count_if q password <= len password /\
  (count_if q password = len password <-> forallb q password = true).
Proof.
  rewrite count_if_count. split; [apply count_bounds|].
  unfold count, len.
  induction password as [|c password IH]; cbn [forallb filter List.length].
  - split; reflexivity.
  - pose proof (filter_length_le q password) as Hle.
    destruct (q c); cbn [andb List.length].
    + rewrite <- IH. lia.
    + split; [lia | discriminate].
Qed.

(** X13. [char_types] is the number of the four classes (lowercase,
    uppercase, digit, not alphanumeric) that have at least one character
    in the password; it lies between 0 and 4 and is 0 for the empty
    password. *)
Theorem char_types_counts_classes password :
  char_types password =
    len (filter (fun q => 0 <? count_if q password)
           [islower; isupper; isdigit; fun c => negb (isalnum c)]) /\
  0 <= char_types password <= 4 /\
  char_types (@nil char) = 0.
Proof.
  split; [|split; [apply char_types_bounds | reflexivity]].
  unfold char_types, has_lower, has_upper, has_digit, has_special, py_sum, len.
  cbn [fold_left filter].
  assert (H : forall q, (0 <? count_if q password) = any q password).
  { intro q. destruct (any q password) eqn:E.
    - apply Z.ltb_lt, any_iff_count_positive, E.
    - apply Z.ltb_ge. destruct (Z_lt_le_dec 0 (count_if q password)) as [L|L];
        [|assumption].
      apply any_iff_count_positive in L. congruence. }
  rewrite !H.
  destruct (any islower password), (any isupper password),
    (any isdigit password), (any (fun c => negb (isalnum c)) password);
    reflexivity.
Qed.

End EngineProperties.

(** * Properties of the analysis page *)

Section PageProperties.

Context {char float : Type} {PC : PyChar char} {PF : PyFloat float}
  {PFF : PyFloatFormat float}.

Implicit Types (m : Models char float) (password : list char)
  (log : list (Call char float)) (ws : list Widget) (p : list float) (raw : Z).

(** Python's indexing fails exactly outside [-len, len). *)
Lemma py_index_None_iff {A} (l : list A) (i : Z) :
  py_index l i = None <-> i < - len l \/ len l <= i.
Proof.
  unfold py_index, len.
  destruct (Z.leb_spec 0 i), (Z.ltb_spec i (Z.of_nat (List.length l))),
    (Z.leb_spec (- Z.of_nat (List.length l)) i), (Z.ltb_spec i 0);
    cbn [andb]; rewrite ?nth_error_None;
    try lia; split; intro; try reflexivity; try lia.
Qed.

Lemma percent_ok (q : char -> bool) password (s : list (Call char float) * list Widget) :
  password <> [] ->
  percent q password s =
    (Done (format_0f (float_mul_int
                        (true_div (count_if q password) (len password)) 100)
             ++ "%")%string,
     s).
Proof.
  intro Hne. unfold percent, ui_bind, engine, py_div.
  destruct (Z.eqb_spec (len password) 0) as [E|_].
  - apply len_zero_iff in E. contradiction.
  - destruct s as [log ws]. reflexivity.
Qed.

Lemma py_not_nonempty password : password <> [] -> py_not password = false.
Proof. destruct password; [contradiction | reflexivity]. Qed.

(** One step of the handler at a time. *)
Lemma step_draw {B} (w : Widget) (k : unit -> UI B) log ws :
  ui_bind (draw w) k (log, ws) = k tt (log, ws ++ [w]).
Proof. reflexivity. Qed.

Lemma step_engine_returned {A B} (c : M char float A) (k : A -> UI B)
      log log' ws a :
  c log = (Returned a, log') ->
  ui_bind (engine c) k (log, ws) = k a (log', ws).
Proof. intro E. unfold ui_bind, engine. cbn [fst snd]. rewrite E. reflexivity. Qed.

Lemma step_engine_raised {A B} (c : M char float A) (k : A -> UI B)
      log log' ws e :
  c log = (Raised e, log') ->
  ui_bind (engine c) k (log, ws) = (Failed (Exn e), (log', ws)).
Proof. intro E. unfold ui_bind, engine. cbn [fst snd]. rewrite E. reflexivity. Qed.

Lemma step_index_some {A B} (l : list A) (i : Z) (k : A -> UI B)
      (s : list (Call char float) * list Widget) a :
  py_index l i = Some a -> ui_bind (index l i) k s = k a s.
Proof. intro E. unfold ui_bind, index. rewrite E. reflexivity. Qed.

Lemma step_index_none {A B} (l : list A) (i : Z) (k : A -> UI B)
      (s : list (Call char float) * list Widget) :
  py_index l i = None -> ui_bind (index l i) k s = (Failed IndexError, s).
Proof. intro E. unfold ui_bind, index. rewrite E. reflexivity. Qed.

Lemma step_percent {B} (q : char -> bool) password (k : string -> UI B)
      (s : list (Call char float) * list Widget) :
  password <> [] ->
  ui_bind (percent q password) k s =
    k (format_0f (float_mul_int
                    (true_div (count_if q password) (len password)) 100)
         ++ "%")%string s.
Proof.
  intro Hne. unfold ui_bind at 1. rewrite percent_ok by assumption.
  reflexivity.
Qed.

(** The widgets of a completed analysis: the spinner, the result card,
    widgets that are neither a card nor a tip box, and one tip box. *)
Lemma on_analyze_done m password log log' ws label p reason color emoji name :
  password <> [] ->
  predict_password_strength m password log =
    (Returned (label, p, reason), log') ->
  py_index strength_colors label = Some color ->
  py_index strength_emojis label = Some emoji ->
  py_index strength_names label = Some name ->
  exists metrics,
    on_analyze m password (log, ws) =
      (Done tt,
       (log',
        ws ++ Spinner "🔐 Analyzing password strength..."
           :: ResultCard ("result-card result-" ++ color)
                (emoji ++ " Password Strength: " ++ py_upper name) reason
           :: metrics
           ++ [if label =? 0 then weak_tips
               else if label =? 1 then normal_tips else strong_tips])) /\
    Forall (fun w => match w with
                     | ResultCard _ _ _ | TipBox _ _ | Warning _ => False
                     | _ => True
                     end) metrics.
Proof.
  intros Hne Hrun Hc He Hn. unfold on_analyze.
  rewrite py_not_nonempty by assumption.
  rewrite step_draw.
  rewrite (step_engine_returned _ _ log log' _ (label, p, reason) Hrun).
  rewrite (step_index_some _ _ _ _ color Hc).
  rewrite (step_index_some _ _ _ _ emoji He).
  rewrite (step_index_some _ _ _ _ name Hn).
  do 4 rewrite step_draw.
  rewrite (step_percent islower password _ _ Hne).
  rewrite step_draw.
  rewrite (step_percent isupper password _ _ Hne).
  do 2 rewrite step_draw.
  rewrite (step_percent isdigit password _ _ Hne).
  rewrite step_draw.
  rewrite (step_percent _ password _ _ Hne).
  do 3 rewrite step_draw.
  match goal with
  | |- context [(((((((((((?l ++ [?a]) ++ [?b]) ++ [?c]) ++ [?d]) ++ [?e])
                   ++ [?f]) ++ [?g]) ++ [?h]) ++ [?i]) ++ [?j]) ++ [?k]) ++ [?n]] =>
      exists [c; d; e; f; g; h; i; j; k; n]
  end.
  split.
  - destruct (label =? 0); [|destruct (label =? 1)];
      unfold draw; cbn [fst snd]; rewrite <- !app_assoc; cbn [app];
      reflexivity.
  - repeat constructor.
Qed.

Lemma on_analyze_index_error m password log log' ws label p reason :
  password <> [] ->
  predict_password_strength m password log =
    (Returned (label, p, reason), log') ->
  label < -3 \/ 2 < label ->
  on_analyze m password (log, ws) =
    (Failed IndexError,
     (log', ws ++ [Spinner "🔐 Analyzing password strength..."])).
Proof.
  intros Hne Hrun Hl. unfold on_analyze.
  rewrite py_not_nonempty by assumption.
  rewrite step_draw.
  rewrite (step_engine_returned _ _ log log' _ (label, p, reason) Hrun).
  rewrite step_index_none; [reflexivity|].
  apply py_index_None_iff. cbn. lia.
Qed.

Lemma on_analyze_engine_raises m password log log' ws e :
  password <> [] ->
  predict_password_strength m password log = (Raised e, log') ->
  on_analyze m password (log, ws) =
    (Failed (Exn e),
     (log', ws ++ [Spinner "🔐 Analyzing password strength..."])).
Proof.
  intros Hne Hrun. unfold on_analyze.
  rewrite py_not_nonempty by assumption.
  rewrite step_draw.
  rewrite (step_engine_raised _ _ log log' _ e Hrun). reflexivity.
Qed.

Lemma py_index_in_range label :
  -3 <= label <= 2 ->
  exists color emoji name,
    py_index strength_colors label = Some color /\
    py_index strength_emojis label = Some emoji /\
    py_index strength_names label = Some name.
Proof.
  intro H.
  destruct (py_index strength_colors label) as [color|] eqn:Hc;
    [|apply py_index_None_iff in Hc; cbn in Hc; lia].
  destruct (py_index strength_emojis label) as [emoji|] eqn:He;
    [|apply py_index_None_iff in He; cbn in He; lia].
  destruct (py_index strength_names label) as [name|] eqn:Hn;
    [|apply py_index_None_iff in Hn; cbn in Hn; lia].
  exists color, emoji, name. repeat split; reflexivity.
Qed.

Lemma run_pair m password log :
  predict_password_strength m password log =
    (fst (predict_password_strength m password log),
     snd (predict_password_strength m password log)).
Proof. apply surjective_pairing. Qed.

(** ** What the page shows *)

(** X14. Pressing the button with an empty password draws the warning
    and nothing else, and calls neither the vectorizer nor the
    classifier. *)
Theorem empty_password_only_warns m log ws :
  on_analyze m [] (log, ws) =
    (Done tt, (log, ws ++ [Warning "⚠️ Please enter a password to analyze"])).
Proof. reflexivity. Qed.

(** X15. When the models answer a raw label among 0, 1 and 2 on a
    non-empty password, the handler completes, and the result card and
    the recommendations agree with the returned label: WEAK with the tips
    for a weak password for 0, NORMAL with the tips for a decent one for
    1, STRONG with the tips for a strong one for 2. One card and one tip
    box are drawn. *)
Theorem card_and_tips_agree m password log ws raw p :
  password <> [] ->
  raw_prediction m password = Some (raw, p) ->
  0 <= raw <= 2 ->
  exists label reason log' css title middle tips,
    fst (predict_password_strength m password log) =
      Returned (label, p, reason) /\
    on_analyze m password (log, ws) =
      (Done tt,
       (log',
        ws ++ Spinner "🔐 Analyzing password strength..."
           :: ResultCard css title reason :: middle ++ [tips])) /\
    Forall (fun w => match w with
                     | ResultCard _ _ _ | TipBox _ _ | Warning _ => False
                     | _ => True
                     end) middle /\
    ((label = 0 /\ css = "result-card result-weak" /\
      title = "🔴 Password Strength: WEAK" /\ tips = weak_tips) \/
     (label = 1 /\ css = "result-card result-normal" /\
      title = "🟡 Password Strength: NORMAL" /\ tips = normal_tips) \/
     (label = 2 /\ css = "result-card result-strong" /\
      title = "🟢 Password Strength: STRONG" /\ tips = strong_tips)).
Proof.
  intros Hne Hraw Hr.
  pose proof (rule_chain_label_range (len password) (char_types password)
                raw Hr) as HL.
  apply raw_prediction_Some in Hraw as (v & Hv & Hp & Hq).
  pose proof (run_returns m password log v raw p (nonempty_len _ Hne) Hv Hp Hq)
    as Hrun.
  remember (fst (rule_chain (len password) (char_types password) raw)) as L.
  remember (snd (rule_chain (len password) (char_types password) raw)) as R.
  assert (HL3 : L = 0 \/ L = 1 \/ L = 2) by lia.
  exists L, R. eexists.
  destruct HL3 as [E|[E|E]]; rewrite E in Hrun |- *.
  - destruct (on_analyze_done m password log _ ws 0 p R "weak" "🔴" "Weak"
                Hne Hrun eq_refl eq_refl eq_refl) as (middle & Hdone & Hmid).
    exists "result-card result-weak", "🔴 Password Strength: WEAK",
      middle, weak_tips.
    split; [rewrite Hrun; reflexivity|]. split; [exact Hdone|].
    split; [exact Hmid|]. left. repeat split; reflexivity.
  - destruct (on_analyze_done m password log _ ws 1 p R "normal" "🟡" "Normal"
                Hne Hrun eq_refl eq_refl eq_refl) as (middle & Hdone & Hmid).
    exists "result-card result-normal", "🟡 Password Strength: NORMAL",
      middle, normal_tips.
    split; [rewrite Hrun; reflexivity|]. split; [exact Hdone|].
    split; [exact Hmid|]. right; left. repeat split; reflexivity.
  - destruct (on_analyze_done m password log _ ws 2 p R "strong" "🟢" "Strong"
                Hne Hrun eq_refl eq_refl eq_refl) as (middle & Hdone & Hmid).
    exists "result-card result-strong", "🟢 Password Strength: STRONG",
      middle, strong_tips.
    split; [rewrite Hrun; reflexivity|]. split; [exact Hdone|].
    split; [exact Hmid|]. right; right. repeat split; reflexivity.
Qed.

(** X16. The handler indexes three lists of length 3 with the returned
    label and does not check it: it raises IndexError exactly when the
    label is below -3 or above 2, and then nothing but the spinner has
    been drawn. *)
Theorem index_error_iff_label_out_of_range m password log ws label p reason :
  password <> [] ->
  fst (predict_password_strength m password log) =
    Returned (label, p, reason) ->
  (fst (on_analyze m password (log, ws)) = Failed IndexError <->
   label < -3 \/ 2 < label) /\
  (label < -3 \/ 2 < label ->
   snd (snd (on_analyze m password (log, ws))) =
     ws ++ [Spinner "🔐 Analyzing password strength..."]).
Proof.
  intros Hne Hret.
  pose proof (run_pair m password log) as Hrun. rewrite Hret in Hrun.
  split; [split|].
  - intro Hfail.
    destruct (Z_lt_le_dec label (-3)) as [|Hlo]; [left; assumption|].
    destruct (Z_lt_le_dec 2 label) as [|Hhi]; [right; assumption|].
    destruct (py_index_in_range label (conj Hlo Hhi))
      as (color & emoji & name & Hc & He & Hn).
    destruct (on_analyze_done m password log _ ws label p reason color emoji
                name Hne Hrun Hc He Hn) as (middle & Hdone & _).
    rewrite Hdone in Hfail. discriminate.
  - intro Hout.
    rewrite (on_analyze_index_error m password log _ ws label p reason
               Hne Hrun Hout).
    reflexivity.
  - intro Hout.
    rewrite (on_analyze_index_error m password log _ ws label p reason
               Hne Hrun Hout).
    reflexivity.
Qed.

(** X17. If the engine raises (the vectorizer or the classifier raised),
    the handler raises the same exception after the spinner: no result
    card, no metric and no recommendation is drawn. *)
Theorem model_failure_shows_no_result m password log ws e :
  password <> [] ->
  fst (predict_password_strength m password log) = Raised e ->
  on_analyze m password (log, ws) =
    (Failed (Exn e),
     (snd (predict_password_strength m password log),
      ws ++ [Spinner "🔐 Analyzing password strength..."])).
Proof.
  intros Hne Hret.
  pose proof (run_pair m password log) as Hrun. rewrite Hret in Hrun.
  apply on_analyze_engine_raises; assumption.
Qed.

(** X18. The page never shows a result card with the reason
    "Empty password": the handler calls the engine on non-empty passwords
    only, so the engine's branch for the empty password is not reached
    from the button. *)
Theorem never_shows_empty_password_reason m password log css title :
  ~ In (ResultCard css title "Empty password")
       (snd (snd (on_analyze m password (log, [])))).
Proof.
  destruct password as [|c password].
  - cbn. intros [H|[]]. discriminate.
  - assert (Hne : c :: password <> []) by discriminate.
    pose proof (run_pair m (c :: password) log) as Hrun.
    destruct (fst (predict_password_strength m (c :: password) log))
      as [[[label p] reason]|e] eqn:Hret.
    + destruct (returned_inv m _ log label p reason Hne Hret)
        as (raw & _ & _ & Hreason).
      assert (Hr : reason <> "Empty password")
        by (rewrite Hreason; apply rule_chain_reason_not_empty_password).
      destruct (Z_lt_le_dec label (-3)) as [Hlo|Hlo];
        [|destruct (Z_lt_le_dec 2 label) as [Hhi|Hhi]].
      * rewrite (on_analyze_index_error m _ log _ [] label p reason Hne Hrun
                   (or_introl Hlo)).
        cbn. intros [H|[]]. discriminate.
      * rewrite (on_analyze_index_error m _ log _ [] label p reason Hne Hrun
                   (or_intror Hhi)).
        cbn. intros [H|[]]. discriminate.
      * destruct (py_index_in_range label (conj Hlo Hhi))
          as (color & emoji & name & Hc & He & Hn).
        destruct (on_analyze_done m _ log _ [] label p reason color emoji
                    name Hne Hrun Hc He Hn) as (middle & Hdone & Hmid).
        rewrite Hdone. cbn [fst snd app].
        intros [H|[H|H]]; [discriminate | | ].
        -- injection H as _ _ H. contradiction.
        -- apply in_app_or in H as [H|[H|[]]].
           ++ rewrite Forall_forall in Hmid. apply (Hmid _ H).
           ++ destruct (label =? 0); [|destruct (label =? 1)]; discriminate.
    + rewrite (on_analyze_engine_raises m _ log _ [] e Hne Hrun).
      cbn. intros [H|[]]. discriminate.
Qed.

End PageProperties.

(** * The further properties at concrete inputs *)

Example TheQuixy_page :
  snd (snd (on_analyze says_weak TheQuixy ([], []))) =
    [Spinner "🔐 Analyzing password strength...";
     ResultCard "result-card result-strong" "🟢 Password Strength: STRONG"
       "Long password (19 chars) with good diversity (4/4 types)";
     Heading "### 📊 Password Analysis"; Columns 3;
     Metric "19" "Characters"; Metric "53%" "Lowercase";
     Metric "11%" "Uppercase"; Columns 3; Metric "32%" "Digits";
     Metric "5%" "Special Chars"; Metric "4/4" "Char Types";
     Heading "### 💡 Recommendations"; strong_tips].
Proof. vm_compute. reflexivity. Qed.

(** A label of -1 indexes the lists from the end. *)
Example minus_one_page :
  exists rest,
    on_analyze says_minus_one Password1234 ([], []) =
      (Done tt,
       (snd (predict_password_strength says_minus_one Password1234 []),
        Spinner "🔐 Analyzing password strength..."
        :: ResultCard "result-card result-strong" "🟢 Password Strength: STRONG"
             "Model prediction" :: rest)).
Proof. eexists. vm_compute. reflexivity. Qed.

Lemma label_in_range_reason_nonempty_witness :
  raw_prediction says_strong abc123 = Some (2, mostly_strong) /\
  0 <= 2 <= 2 /\
  exists label probs reason,
    fst (predict_password_strength says_strong abc123 []) =
      Returned (label, probs, reason) /\
    0 <= label <= 2 /\ reason <> "".
Proof.
  assert (H1 : raw_prediction says_strong abc123 = Some (2, mostly_strong))
    by reflexivity.
  assert (H2 : 0 <= 2 <= 2) by by_computation.
  exact (conj H1 (conj H2
           (label_in_range_reason_nonempty says_strong abc123 [] 2
              mostly_strong H1 H2))).
Defined.

Lemma strong_iff_witness :
  TheQuixy <> [] /\
  raw_prediction says_weak TheQuixy = Some (0, mostly_weak) /\
  exists label reason,
    fst (predict_password_strength says_weak TheQuixy []) =
      Returned (label, mostly_weak, reason) /\
    (label = 2 <->
     (13 <= len TheQuixy /\ 0 = 2) \/
     (18 <= len TheQuixy /\ 3 <= char_types TheQuixy) \/
     30 <= len TheQuixy).
Proof.
  assert (H1 : TheQuixy <> []) by discriminate.
  assert (H2 : raw_prediction says_weak TheQuixy = Some (0, mostly_weak))
    by reflexivity.
  exact (conj H1 (conj H2
           (strong_iff says_weak TheQuixy [] 0 mostly_weak H1 H2))).
Defined.

Lemma weak_iff_witness :
  Password1234 <> [] /\
  raw_prediction says_weak Password1234 = Some (0, mostly_weak) /\
  exists label reason,
    fst (predict_password_strength says_weak Password1234 []) =
      Returned (label, mostly_weak, reason) /\
    (label = 0 <->
     len Password1234 <= 6 \/ (len Password1234 <= 14 /\ 0 = 0)).
Proof.
  assert (H1 : Password1234 <> []) by discriminate.
  assert (H2 : raw_prediction says_weak Password1234 = Some (0, mostly_weak))
    by reflexivity.
  exact (conj H1 (conj H2
           (weak_iff says_weak Password1234 [] 0 mostly_weak H1 H2))).
Defined.

Lemma overrides_push_one_way_witness :
  Password123 <> [] /\
  raw_prediction says_strong Password123 = Some (2, mostly_strong) /\
  0 <= 2 <= 2 /\
  exists label reason,
    fst (predict_password_strength says_strong Password123 []) =
      Returned (label, mostly_strong, reason) /\
    (13 <= len Password123 -> 2 <= label) /\
    (len Password123 <= 12 -> label <= 2).
Proof.
  assert (H1 : Password123 <> []) by discriminate.
  assert (H2 : raw_prediction says_strong Password123
               = Some (2, mostly_strong)) by reflexivity.
  assert (H3 : 0 <= 2 <= 2) by by_computation.
  exact (conj H1 (conj H2 (conj H3
           (overrides_push_one_way says_strong Password123 [] 2 mostly_strong
              H1 H2 H3)))).
Defined.

Lemma model_prediction_means_raw_label_witness :
  Password1234 <> [] /\
  raw_prediction says_normal Password1234 = Some (1, mostly_weak) /\
  exists label reason,
    fst (predict_password_strength says_normal Password1234 []) =
      Returned (label, mostly_weak, reason) /\
    (reason = "Model prediction" -> label = 1) /\
    (label <> 1 -> reason <> "Model prediction").
Proof.
  assert (H1 : Password1234 <> []) by discriminate.
  assert (H2 : raw_prediction says_normal Password1234
               = Some (1, mostly_weak)) by reflexivity.
  exact (conj H1 (conj H2
           (model_prediction_means_raw_label says_normal Password1234 [] 1
              mostly_weak H1 H2))).
Defined.

Lemma label_monotone_witness :
  abc123 <> [] /\
  raw_prediction says_weak abc123 = Some (0, mostly_weak) /\
  raw_prediction says_strong TheQuixy = Some (2, mostly_strong) /\
  len abc123 <= len TheQuixy /\
  char_types abc123 <= char_types TheQuixy /\
  exists label reason label' reason',
    fst (predict_password_strength says_weak abc123 []) =
      Returned (label, mostly_weak, reason) /\
    fst (predict_password_strength says_strong TheQuixy []) =
      Returned (label', mostly_strong, reason') /\
    label <= label'.
Proof.
  assert (H1 : abc123 <> []) by discriminate.
  assert (H2 : raw_prediction says_weak abc123 = Some (0, mostly_weak))
    by reflexivity.
  assert (H3 : raw_prediction says_strong TheQuixy = Some (2, mostly_strong))
    by reflexivity.
  assert (H4 : len abc123 <= len TheQuixy) by by_computation.
  assert (H5 : char_types abc123 <= char_types TheQuixy) by by_computation.
  assert (H6 : 0 <= 0) by by_computation.
  assert (H7 : 0 <= 2) by by_computation.
  assert (H8 : 2 <= 2) by by_computation.
  exact (conj H1 (conj H2 (conj H3 (conj H4 (conj H5
           (label_monotone says_weak says_strong abc123 TheQuixy [] [] 0 2
              mostly_weak mostly_strong H1 H2 H3 H4 H5 H6 H7 H8)))))).
Defined.

Lemma vectorizer_failure_propagates_witness :
  abc123 <> [] /\
  vectorizer_transform no_vectorizer abc123 = None /\
  predict_password_strength no_vectorizer abc123 [] =
    (Raised VectorizerError, [] ++ [TransformCall abc123]).
Proof.
  assert (H1 : abc123 <> []) by discriminate.
  assert (H2 : vectorizer_transform no_vectorizer abc123 = None)
    by reflexivity.
  exact (conj H1 (conj H2
           (vectorizer_failure_propagates no_vectorizer abc123 [] H1 H2))).
Defined.

Lemma predict_failure_propagates_witness :
  abc123 <> [] /\
  vectorizer_transform (broken_models [f_0_5]) abc123 = Some [f_0_5] /\
  clf_predict (broken_models [f_0_5]) (feature_vector abc123 [f_0_5]) = None /\
  predict_password_strength (broken_models [f_0_5]) abc123 [] =
    (Raised ClassifierError,
     [] ++ [TransformCall abc123;
            PredictCall (feature_vector abc123 [f_0_5])]).
Proof.
  assert (H1 : abc123 <> []) by discriminate.
  assert (H2 : vectorizer_transform (broken_models [f_0_5]) abc123
               = Some [f_0_5]) by reflexivity.
  assert (H3 : clf_predict (broken_models [f_0_5])
                 (feature_vector abc123 [f_0_5]) = None) by reflexivity.
  exact (conj H1 (conj H2 (conj H3
           (predict_failure_propagates (broken_models [f_0_5]) abc123 []
              [f_0_5] H1 H2 H3)))).
Defined.

Lemma returns_iff_models_return_witness :
  abc123 <> [] /\
  ((exists r,
       fst (predict_password_strength says_strong abc123 []) = Returned r) <->
   (exists raw p, raw_prediction says_strong abc123 = Some (raw, p))).
Proof.
  assert (H1 : abc123 <> []) by discriminate.
  exact (conj H1 (returns_iff_models_return says_strong abc123 [] H1)).
Defined.

Lemma card_and_tips_agree_witness :
  Password123 <> [] /\
  raw_prediction says_strong Password123 = Some (2, mostly_strong) /\
  0 <= 2 <= 2 /\
  exists label reason log' css title middle tips,
    fst (predict_password_strength says_strong Password123 []) =
      Returned (label, mostly_strong, reason) /\
    on_analyze says_strong Password123 ([], []) =
      (Done tt,
       (log',
        [] ++ Spinner "🔐 Analyzing password strength..."
           :: ResultCard css title reason :: middle ++ [tips])) /\
    Forall (fun w => match w with
                     | ResultCard _ _ _ | TipBox _ _ | Warning _ => False
                     | _ => True
                     end) middle /\
    ((label = 0 /\ css = "result-card result-weak" /\
      title = "🔴 Password Strength: WEAK" /\ tips = weak_tips) \/
     (label = 1 /\ css = "result-card result-normal" /\
      title = "🟡 Password Strength: NORMAL" /\ tips = normal_tips) \/
     (label = 2 /\ css = "result-card result-strong" /\
      title = "🟢 Password Strength: STRONG" /\ tips = strong_tips)).
Proof.
  assert (H1 : Password123 <> []) by discriminate.
  assert (H2 : raw_prediction says_strong Password123
               = Some (2, mostly_strong)) by reflexivity.
  assert (H3 : 0 <= 2 <= 2) by by_computation.
  exact (conj H1 (conj H2 (conj H3
           (card_and_tips_agree says_strong Password123 [] [] 2 mostly_strong
              H1 H2 H3)))).
Defined.

Lemma index_error_iff_label_out_of_range_witness :
  Password1234 <> [] /\
  fst (predict_password_strength says_three Password1234 []) =
    Returned (3, mostly_strong, "Model prediction") /\
  (fst (on_analyze says_three Password1234 ([], [])) = Failed IndexError <->
   3 < -3 \/ 2 < 3) /\
  (3 < -3 \/ 2 < 3 ->
   snd (snd (on_analyze says_three Password1234 ([], []))) =
     [] ++ [Spinner "🔐 Analyzing password strength..."]).
Proof.
  assert (H1 : Password1234 <> []) by discriminate.
  assert (H2 : fst (predict_password_strength says_three Password1234 []) =
               Returned (3, mostly_strong, "Model prediction"))
    by reflexivity.
  exact (conj H1 (conj H2
           (index_error_iff_label_out_of_range says_three Password1234 [] []
              3 mostly_strong "Model prediction" H1 H2))).
Defined.

Lemma model_failure_shows_no_result_witness :
  abc123 <> [] /\
  fst (predict_password_strength (broken_models [f_0_5]) abc123 []) =
    Raised ClassifierError /\
  on_analyze (broken_models [f_0_5]) abc123 ([], []) =
    (Failed (Exn ClassifierError),
     (snd (predict_password_strength (broken_models [f_0_5]) abc123 []),
      [] ++ [Spinner "🔐 Analyzing password strength..."])).
Proof.
  assert (H1 : abc123 <> []) by discriminate.
  assert (H2 : fst (predict_password_strength (broken_models [f_0_5]) abc123 [])
               = Raised ClassifierError) by reflexivity.
  exact (conj H1 (conj H2
           (model_failure_shows_no_result (broken_models [f_0_5]) abc123 [] []
              ClassifierError H1 H2))).
Defined.


(** The divisions of a run, and a run that raises after them. *)
Example abc123_divisions :
  let log0 : list (Call ascii spec_float) := [] in
  py_div (count_if islower abc123) (len abc123) log0 = (Returned f_0_5, log0) /\
  py_div (count_if isupper abc123) (len abc123) log0 = (Returned f_0_0, log0) /\
  py_div (count_if isdigit abc123) (len abc123) log0 = (Returned f_0_5, log0) /\
  py_div (count_if islower (@nil ascii)) (len (@nil ascii)) log0 =
    (Raised ZeroDivisionError, log0).
Proof. repeat split; reflexivity. Qed.
